(** * docs/source/conf.py: the Sphinx configuration of PGPainless

    The configuration file is a Python module that the documentation
    builder executes once.  It binds a flat namespace of names to
    values; the only computation is
    [os.popen('git describe --abbrev=0').read().strip()].

    The module is embedded as a program in a state-and-exception monad:
    the state holds the module namespace, the builtins of the frame, the
    pipes opened so far and the trace of processes spawned; the world
    outside (the bytes a shell command writes to its standard output) is a
    function the program is run against. *)

From Stdlib Require Import NArith ZArith Ascii.
From Stdlib Require Strings.Byte.
From stdpp Require Import base option list strings gmap.

(** ** Python strings *)

(** A Python [str] is a sequence of Unicode code points. *)
Abbreviation pystr := (list N).

(** The code points of a source literal (all literals of conf.py are ASCII). *)
Definition str (s : string) : pystr :=
  map N_of_ascii (String.list_ascii_of_string s).

(** [str.isspace] on one code point: the characters [str.strip()] removes
    when called without argument.  Below 128 these are TAB, LF, VT, FF, CR,
    FS, GS, RS, US and SPACE; above, the code points of bidirectional type
    WS, B or S or of category Zs. *)
Definition isspace (c : N) : bool :=
  ((9 <=? c) && (c <=? 13)
   || (28 <=? c) && (c <=? 32)
   || (c =? 0x85) || (c =? 0xA0) || (c =? 0x1680)
   || (0x2000 <=? c) && (c <=? 0x200A)
   || (c =? 0x2028) || (c =? 0x2029) || (c =? 0x202F)
   || (c =? 0x205F) || (c =? 0x3000))%N.

(** [str.lstrip()] *)
Fixpoint lstrip (s : pystr) : pystr :=
  match s with
  | c :: s' => if isspace c then lstrip s' else s
  | [] => []
  end.

(** [str.rstrip()] *)
Definition rstrip (s : pystr) : pystr := rev (lstrip (rev s)).

(** [str.strip()]: whitespace removed at both ends. *)
Definition strip (s : pystr) : pystr := rstrip (lstrip s).

(** Whether a string starts, or ends, with a whitespace character. *)
Definition starts_with_space (s : pystr) : bool :=
  default false (isspace <$> head s).
Definition ends_with_space (s : pystr) : bool :=
  default false (isspace <$> last s).

(** ** The text layer of a pipe *)

(** [os.popen] returns a text-mode file: what [read()] hands out is the
    bytes of the pipe decoded with the preferred encoding, errors strict,
    and then passed through universal-newline translation.  The encoding is
    taken to be UTF-8, as on the hosts that build the documentation and
    under Python's UTF-8 mode. *)

Abbreviation bytes := (list Byte.byte).

(** The bytes of an ASCII literal. *)
Definition ascii_bytes (s : string) : bytes := String.list_byte_of_string s.

Definition between (lo hi b : N) : bool := ((lo <=? b) && (b <=? hi))%N.

(** The six payload bits of a continuation byte. *)
Definition low6 (b : N) : N := N.land b 0x3F.

(** The range allowed for the byte after the lead byte [b0] of a sequence
    of three or four bytes: it excludes overlong forms, the surrogates
    U+D800..U+DFFF and everything above U+10FFFF. *)
Definition second_ok (b0 b1 : N) : bool :=
  if (b0 =? 0xE0)%N then between 0xA0 0xBF b1
  else if (b0 =? 0xED)%N then between 0x80 0x9F b1
  else if (b0 =? 0xF0)%N then between 0x90 0xBF b1
  else if (b0 =? 0xF4)%N then between 0x80 0x8F b1
  else between 0x80 0xBF b1.

(** Strict UTF-8 decoding; [None] is [UnicodeDecodeError]. *)
Fixpoint utf8_decode (bs : bytes) : option pystr :=
  match bs with
  | [] => Some []
  | x0 :: r0 =>
      let b0 := Byte.to_N x0 in
      if (b0 <? 0x80)%N then cons b0 <$> utf8_decode r0
      else if between 0xC2 0xDF b0 then
        match r0 with
        | x1 :: r1 =>
            let b1 := Byte.to_N x1 in
            if between 0x80 0xBF b1
            then cons (N.lor (N.shiftl (N.land b0 0x1F) 6) (low6 b1))
                   <$> utf8_decode r1
            else None
        | _ => None
        end
      else if between 0xE0 0xEF b0 then
        match r0 with
        | x1 :: x2 :: r2 =>
            let b1 := Byte.to_N x1 in
            let b2 := Byte.to_N x2 in
            if second_ok b0 b1 && between 0x80 0xBF b2
            then cons (N.lor (N.shiftl (N.land b0 0x0F) 12)
                         (N.lor (N.shiftl (low6 b1) 6) (low6 b2)))
                   <$> utf8_decode r2
            else None
        | _ => None
        end
      else if between 0xF0 0xF4 b0 then
        match r0 with
        | x1 :: x2 :: x3 :: r3 =>
            let b1 := Byte.to_N x1 in
            let b2 := Byte.to_N x2 in
            let b3 := Byte.to_N x3 in
            if second_ok b0 b1 && between 0x80 0xBF b2 && between 0x80 0xBF b3
            then cons (N.lor (N.shiftl (N.land b0 0x07) 18)
                         (N.lor (N.shiftl (low6 b1) 12)
                            (N.lor (N.shiftl (low6 b2) 6) (low6 b3))))
                   <$> utf8_decode r3
            else None
        | _ => None
        end
      else None
  end.

(** Universal newlines: CR LF and a lone CR both become LF.  [pending_cr]
    tells that the character before was a CR, already turned into LF. *)
Fixpoint newlines (pending_cr : bool) (s : pystr) : pystr :=
  match s with
  | [] => []
  | c :: s' =>
      if (c =? 13)%N then 10%N :: newlines true s'
      else if (c =? 10)%N && pending_cr then newlines false s'
      else c :: newlines false s'
  end.

Definition translate_newlines (s : pystr) : pystr := newlines false s.

(** Whether a string holds a carriage return. *)
Definition has_cr (s : pystr) : bool := existsb (λ c, (c =? 13)%N) s.

(** ** Python values *)

#[warnings="-register-all"]
Inductive value : Type :=
  | VStr (s : pystr)
  | VInt (n : Z)
  | VList (items : list value)
  | VDict (entries : list (value * value))
  | VModule (name : string)
  | VFile (fd : nat).

Definition is_str (v : value) : bool :=
  match v with VStr _ => true | _ => false end.

Definition is_int (v : value) : bool :=
  match v with VInt _ => true | _ => false end.

Definition is_str_list (v : value) : bool :=
  match v with VList items => forallb is_str items | _ => false end.

Definition is_str_dict (v : value) : bool :=
  match v with
  | VDict entries => forallb (λ kv, is_str kv.1 && is_str kv.2) entries
  | _ => false
  end.

Definition is_module (v : value) : bool :=
  match v with VModule _ => true | _ => false end.

(** The values a literal of the file can have. *)
Definition is_literal (v : value) : bool :=
  is_str v || is_int v || is_str_list v || is_str_dict v.

(** The values the specification allows: text, lists of text and mappings
    from text to text. *)
Definition is_textual (v : value) : bool :=
  is_str v || is_str_list v || is_str_dict v.

(** Whether a dict has the string [k] among its keys. *)
Definition dict_has (k : pystr) (entries : list (value * value)) : bool :=
  existsb (λ kv, match kv.1 with
                 | VStr s => bool_decide (s = k)
                 | _ => false
                 end) entries.

(** ** The interpreter state and its monad *)

(** The bytes a shell command writes to its standard output. *)
Abbreviation shell := (pystr → bytes).

(** Effects on the world outside the interpreter.  The only builtin of
    conf.py that reaches outside is [os.popen], which starts a process. *)
Inductive event : Type :=
  | Spawn (cmd : pystr).

Inductive exn : Type :=
  | NameError (name : string)
  | AttributeError (attr : string)
  | ImportError
  | UnicodeDecodeError
  | TypeError
  | ValueError
  | SystemError.

(** The namespace the module is executed in is kept in two parts: its
    entry [__builtins__], which the interpreter puts there itself and from
    which the frame takes its builtins, is the field [builtins]; all other
    entries are in [globals]. *)
Record state : Type := State {
  globals : gmap string value;   (* the module namespace *)
  builtins : value;              (* its __builtins__ entry *)
  pipes : list bytes;            (* per descriptor, the output not read yet *)
  trace : list event             (* oldest first *)
}.

(** A statement returns, or raises and leaves the state it had reached. *)
Inductive result (A : Type) : Type :=
  | Ok (a : A)
  | Raise (e : exn) (st : state).
Arguments Ok {A} a.
Arguments Raise {A} e st.

Definition M (A : Type) : Type := shell → state → result (A * state).

#[global] Instance M_ret : MRet M := λ A a _ st, Ok (a, st).

#[global] Instance M_bind : MBind M := λ A B f m sh st,
  match m sh st with
  | Ok (a, st') => f a sh st'
  | Raise e st' => Raise e st'
  end.

Definition raise {A} (e : exn) : M A := λ _ st, Raise e st.

(** ** Statements and builtins *)

(** [name = v] *)
Definition assign (name : string) (v : value) : M unit := λ _ st,
  Ok (tt, State (<[name := v]> (globals st)) (builtins st)
            (pipes st) (trace st)).

(** Reading a global name. *)
Definition load (name : string) : M value := λ _ st,
  match globals st !! name with
  | Some v => Ok (v, st)
  | None => Raise (NameError name) st
  end.

(** [import os]: the statement calls [__import__], which it looks up in the
    builtins of the frame, and binds the name to the module.  The module
    [builtins] provides [__import__]; a dict does if it has the key (no
    value of this model is callable); no other module is taken to provide
    one; anything else is not a namespace at all. *)
Definition import_os : M unit := λ sh st,
  match builtins st with
  | VModule m =>
      if bool_decide (m = "builtins") then assign "os" (VModule "os") sh st
      else Raise ImportError st
  | VDict entries =>
      if dict_has (str "__import__") entries then Raise TypeError st
      else Raise ImportError st
  | _ => Raise SystemError st
  end.

(** [m.popen(cmd)]: runs [cmd] in a subshell and returns a file object
    connected to its standard output. *)
Definition popen (m cmd : value) : M value := λ sh st,
  match m, cmd with
  | VModule name, VStr c =>
      if bool_decide (name = "os") then
        Ok (VFile (length (pipes st)),
            State (globals st) (builtins st)
              (pipes st ++ [sh c]) (trace st ++ [Spawn c]))
      else Raise (AttributeError "popen") st
  | VModule _, _ => Raise TypeError st
  | _, _ => Raise (AttributeError "popen") st
  end.

(** [f.read()]: takes everything up to end of file out of the pipe,
    decodes it and translates the newlines. *)
Definition read (f : value) : M value := λ _ st,
  match f with
  | VFile fd =>
      match pipes st !! fd with
      | Some out =>
          let st' := State (globals st) (builtins st)
                       (<[fd := []]> (pipes st)) (trace st) in
          match utf8_decode out with
          | Some s => Ok (VStr (translate_newlines s), st')
          | None => Raise UnicodeDecodeError st'
          end
      | None => Raise ValueError st
      end
  | _ => Raise (AttributeError "read") st
  end.

(** [s.strip()] *)
Definition strip_method (s : value) : M value :=
  match s with
  | VStr s => mret (VStr (strip s))
  | _ => raise (AttributeError "strip")
  end.

(** ** conf.py *)

Definition git_describe : pystr := str "git describe --abbrev=0".

Definition conf : M unit :=
  import_os ;;
  (* -- Project information *)
  assign "project" (VStr (str "PGPainless")) ;;
  assign "copyright" (VStr (str "2022, Paul Schaub")) ;;
  assign "author" (VStr (str "Paul Schaub")) ;;
  assign "master_doc" (VStr (str "index")) ;;
  os ← load "os" ;
  f ← popen os (VStr git_describe) ;
  out ← read f ;
  tag ← strip_method out ;
  assign "latest_tag" tag ;;
  latest_tag ← load "latest_tag" ;
  assign "release" latest_tag ;;
  release ← load "release" ;
  assign "version" release ;;
  assign "myst_substitutions"
    (VDict [(VStr (str "repo_host"), VStr (str "codeberg.org"))]) ;;
  (* -- General configuration *)
  assign "extensions"
    (VList [VStr (str "myst_parser");
            VStr (str "sphinxcontrib.mermaid");
            VStr (str "sphinx.ext.duration");
            VStr (str "sphinx.ext.doctest");
            VStr (str "sphinx.ext.autodoc");
            VStr (str "sphinx.ext.autosummary")]) ;;
  assign "source_suffix" (VList [VStr (str ".rst"); VStr (str ".md")]) ;;
  assign "myst_enable_extensions"
    (VList [VStr (str "colon_fence"); VStr (str "substitution")]) ;;
  assign "myst_heading_anchors" (VInt 3) ;;
  assign "templates_path" (VList [VStr (str "_templates")]) ;;
  (* -- Options for HTML output *)
  assign "html_theme" (VStr (str "sphinx_rtd_theme")) ;;
  assign "latex_show_urls" (VStr (str "footnote")) ;;
  assign "mermaid_cmd" (VStr (str "./node_modules/.bin/mmdc")) ;;
  assign "mermaid_output_format" (VStr (str "png")) ;;
  assign "mermaid_params"
    (VList [VStr (str "--theme"); VStr (str "default");
            VStr (str "--width"); VStr (str "800");
            VStr (str "--backgroundColor"); VStr (str "transparent")]).

(** The interpreter starts the module with an empty namespace, to which it
    adds the module [builtins]; no pipe is open and nothing is done. *)
Definition initial : state := State ∅ (VModule "builtins") [] [].

(** Executing the configuration file in a world [sh]. *)
Definition evaluate (sh : shell) : result state :=
  match conf sh initial with
  | Ok (_, st) => Ok st
  | Raise e st => Raise e st
  end.

(** A world in which the command is missing or fails: nothing reaches its
    standard output. *)
Definition no_output : shell := λ _, [].

(** A world in which the command prints the tag 1.7.6 and a newline. *)
Definition tagged : shell := λ _, ascii_bytes "1.7.6" ++ [Byte.x0a].

(** A world in which the tag holds a carriage return: v1 CR rc LF. *)
Definition cr_tagged : shell :=
  λ _, ascii_bytes "v1" ++ [Byte.x0d] ++ ascii_bytes "rc" ++ [Byte.x0a].

(** A world in which the output is not UTF-8: v1- 0xE9 LF. *)
Definition latin1_tagged : shell :=
  λ _, ascii_bytes "v1-" ++ [Byte.xe9; Byte.x0a].

(** The names conf.py binds, in the order of their first assignment. *)
Definition conf_names : list string :=
  ["os"; "project"; "copyright"; "author"; "master_doc";
   "latest_tag"; "release"; "version"; "myst_substitutions";
   "extensions"; "source_suffix"; "myst_enable_extensions";
   "myst_heading_anchors"; "templates_path"; "html_theme";
   "latex_show_urls"; "mermaid_cmd"; "mermaid_output_format";
   "mermaid_params"].

(** ** Proof automation *)

(** Splits a lookup of an unknown name in a chain of assignments into one
    case per assigned name. *)
Ltac lookup_cases :=
  rewrite ?lookup_insert, ?lookup_empty;
  repeat (case_decide; [subst; try done|]);
  try done.

(** ** Whitespace stripping *)

Section Strip.

Implicit Types (s t : pystr) (c : N).

Lemma lstrip_clean s : starts_with_space (lstrip s) = false.
Proof.
  induction s as [|c s IH]; [reflexivity|].
  simpl. destruct (isspace c) eqn:Hc; [exact IH|].
  unfold starts_with_space. simpl. exact Hc.
Qed.

Lemma lstrip_id s : starts_with_space s = false → lstrip s = s.
Proof.
  destruct s as [|c s]; [reflexivity|].
  unfold starts_with_space. simpl. intros ->. reflexivity.
Qed.

(** Stripping on the left stops at the latest at a character that is not
    whitespace, so such a last character survives. *)
Lemma lstrip_snoc s c :
  isspace c = false → ∃ t, lstrip (s ++ [c]) = t ++ [c].
Proof.
  intros Hc. induction s as [|d s [t IH]]; simpl.
  - rewrite Hc. by exists [].
  - destruct (isspace d); [by exists t|]. by exists (d :: s).
Qed.

Lemma ends_with_space_rev s : ends_with_space (rev s) = starts_with_space s.
Proof.
  unfold ends_with_space, starts_with_space.
  destruct s as [|c s]; [reflexivity|].
  simpl. rewrite last_snoc. reflexivity.
Qed.

Lemma starts_with_space_rev s : starts_with_space (rev s) = ends_with_space s.
Proof. by rewrite <- ends_with_space_rev, rev_involutive. Qed.

Lemma rstrip_clean s : ends_with_space (rstrip s) = false.
Proof. unfold rstrip. rewrite ends_with_space_rev. apply lstrip_clean. Qed.

Lemma rstrip_id s : ends_with_space s = false → rstrip s = s.
Proof.
  intros H. unfold rstrip. rewrite lstrip_id.
  - apply rev_involutive.
  - by rewrite starts_with_space_rev.
Qed.

(** Stripping on the right keeps a clean left end. *)
Lemma rstrip_keeps_start s :
  starts_with_space s = false → starts_with_space (rstrip s) = false.
Proof.
  destruct s as [|c s]; [reflexivity|].
  unfold starts_with_space at 1. simpl. intros Hc.
  unfold rstrip. simpl rev.
  destruct (lstrip_snoc (rev s) c Hc) as [t ->].
  rewrite rev_app_distr. unfold starts_with_space. simpl. exact Hc.
Qed.

Lemma strip_starts s : starts_with_space (strip s) = false.
Proof. apply rstrip_keeps_start, lstrip_clean. Qed.

Lemma strip_ends s : ends_with_space (strip s) = false.
Proof. apply rstrip_clean. Qed.

Lemma strip_idemp s : strip (strip s) = strip s.
Proof.
  unfold strip at 1.
  rewrite (lstrip_id (strip s)) by apply strip_starts.
  apply rstrip_id, strip_ends.
Qed.

Lemma strip_nil : strip [] = [].
Proof. reflexivity. Qed.

End Strip.

(** ** What stripping keeps and what it removes *)

Section StripShape.

Implicit Types (s t pre post : pystr).

Lemma lstrip_split s :
  ∃ pre, s = pre ++ lstrip s ∧ forallb isspace pre = true.
Proof.
  induction s as [|c s (pre & Hs & Hpre)]; [by exists []|].
  simpl. destruct (isspace c) eqn:Hc; [|by exists []].
  exists (c :: pre). simpl. rewrite Hc, Hpre, <- Hs. done.
Qed.

Lemma forallb_isspace_rev s : forallb isspace (rev s) = forallb isspace s.
Proof.
  induction s as [|c s IH]; [reflexivity|].
  simpl. rewrite forallb_app, IH. simpl.
  rewrite andb_true_r. apply andb_comm.
Qed.

Lemma rstrip_split s :
  ∃ post, s = rstrip s ++ post ∧ forallb isspace post = true.
Proof.
  destruct (lstrip_split (rev s)) as (pre & Hs & Hpre).
  exists (rev pre). split; [|by rewrite forallb_isspace_rev].
  unfold rstrip. rewrite <- rev_app_distr, <- Hs. symmetry. apply rev_involutive.
Qed.

Lemma strip_split s :
  ∃ pre post, s = pre ++ strip s ++ post
    ∧ forallb isspace pre = true ∧ forallb isspace post = true.
Proof.
  destruct (lstrip_split s) as (pre & Hs & Hpre).
  destruct (rstrip_split (lstrip s)) as (post & Ht & Hpost).
  exists pre, post. unfold strip. rewrite <- Ht. done.
Qed.

Lemma lstrip_blank s : forallb isspace s = true → lstrip s = [].
Proof.
  induction s as [|c s IH]; [done|]. simpl.
  destruct (isspace c); [exact IH|discriminate].
Qed.

Lemma lstrip_app_blank pre s :
  forallb isspace pre = true → lstrip (pre ++ s) = lstrip s.
Proof.
  induction pre as [|c pre IH]; [done|]. simpl.
  destruct (isspace c); [exact IH|discriminate].
Qed.

Lemma strip_nil_blank s : bool_decide (strip s = []) = forallb isspace s.
Proof.
  destruct (forallb isspace s) eqn:Hs.
  - apply bool_decide_eq_true_2. unfold strip. by rewrite lstrip_blank.
  - apply bool_decide_eq_false_2. intros Hnil.
    destruct (strip_split s) as (pre & post & Hsplit & Hpre & Hpost).
    rewrite Hnil in Hsplit. simpl in Hsplit. subst s.
    rewrite forallb_app, Hpre, Hpost in Hs. discriminate.
Qed.

Lemma strip_core pre t post :
  forallb isspace pre = true → forallb isspace post = true →
  starts_with_space t = false → ends_with_space t = false →
  strip (pre ++ t ++ post) = t.
Proof.
  intros Hpre Hpost Hstart Hend. unfold strip.
  rewrite lstrip_app_blank by exact Hpre.
  destruct t as [|c t].
  - simpl. by rewrite lstrip_blank.
  - rewrite (lstrip_id ((c :: t) ++ post)) by exact Hstart.
    unfold rstrip. rewrite rev_app_distr.
    rewrite lstrip_app_blank by (by rewrite forallb_isspace_rev).
    rewrite lstrip_id by (by rewrite starts_with_space_rev).
    apply rev_involutive.
Qed.

End StripShape.

(** ** Newline translation *)

Section Newlines.

Implicit Types (s t pre post : pystr) (b : bool).

Lemma newlines_no_cr s : has_cr s = false → newlines false s = s.
Proof.
  induction s as [|c s IH]; [done|]. simpl.
  destruct (c =? 13)%N; [discriminate|]. simpl. intros Hs.
  rewrite andb_false_r, IH by exact Hs. reflexivity.
Qed.

(** Translation turns whitespace into whitespace and nothing else. *)
Lemma newlines_blank b s :
  forallb isspace (newlines b s) = forallb isspace s.
Proof.
  revert b. induction s as [|c s IH]; intros b; [done|]. simpl.
  destruct (N.eqb_spec c 13) as [->|_]; [simpl; by rewrite IH|].
  destruct (N.eqb_spec c 10) as [->|_]; simpl.
  - destruct b; simpl; by rewrite IH.
  - by rewrite IH.
Qed.

(** A character that is not whitespace ends any pending CR LF pair. *)
Lemma newlines_app b pre s :
  starts_with_space s = false →
  newlines b (pre ++ s) = newlines b pre ++ newlines false s.
Proof.
  intros Hs. revert b. induction pre as [|c pre IH]; intros b; simpl.
  - destruct s as [|c s]; [done|]. simpl.
    destruct (N.eqb_spec c 13) as [->|_]; [done|].
    destruct (N.eqb_spec c 10) as [->|_]; [discriminate Hs|done].
  - destruct (c =? 13)%N; [by rewrite IH|].
    destruct ((c =? 10)%N && b); by rewrite IH.
Qed.

Lemma newlines_keeps t post :
  has_cr t = false →
  newlines false (t ++ post) = t ++ newlines false post.
Proof.
  induction t as [|c t IH]; [done|]. simpl.
  destruct (c =? 13)%N; [discriminate|]. simpl. intros Ht.
  rewrite andb_false_r, IH by exact Ht. reflexivity.
Qed.

(** A tag without carriage return and without whitespace at its ends comes
    out of translation and stripping as it is. *)
Lemma strip_translate_core pre t post :
  forallb isspace pre = true → forallb isspace post = true →
  starts_with_space t = false → ends_with_space t = false →
  has_cr t = false →
  strip (translate_newlines (pre ++ t ++ post)) = t.
Proof.
  intros Hpre Hpost Hstart Hend Hcr. unfold translate_newlines.
  destruct t as [|c t].
  - pose proof (strip_nil_blank (newlines false (pre ++ post))) as Hnil.
    rewrite newlines_blank, forallb_app, Hpre, Hpost in Hnil.
    by apply bool_decide_eq_true in Hnil.
  - rewrite newlines_app by exact Hstart.
    rewrite newlines_keeps by exact Hcr.
    apply strip_core; [by rewrite newlines_blank..|done|done].
Qed.

End Newlines.

(** ** Concrete runs *)

(** [git describe] ends its output with a newline. *)
Example strip_tag_line : strip (str "1.7.6" ++ [10%N]) = str "1.7.6".
Proof. reflexivity. Qed.

(** Whitespace inside the string stays; the no-break space U+00A0 and the
    em space U+2003 at the ends go. *)
Example strip_inner_kept :
  strip ([0xA0; 9] ++ str "v1 rc" ++ [13; 10; 0x2003])%N = str "v1 rc".
Proof. reflexivity. Qed.

Example strip_blank : strip (str "   " ++ [10%N]) = [].
Proof. reflexivity. Qed.

(** One, two, three and four bytes to a code point. *)
Example utf8_decode_lengths :
  utf8_decode [Byte.x76; Byte.xc3; Byte.xa9; Byte.xe2; Byte.x80; Byte.x83;
               Byte.xf0; Byte.x9f; Byte.x98; Byte.x80]
  = Some [0x76; 0xE9; 0x2003; 0x1F600]%N.
Proof. reflexivity. Qed.

(** A Latin-1 byte, an overlong form, a surrogate, a code point above
    U+10FFFF and a sequence cut short are refused. *)
Example utf8_decode_refused :
  utf8_decode [Byte.x76; Byte.xe9; Byte.x0a] = None
  ∧ utf8_decode [Byte.xc0; Byte.x80] = None
  ∧ utf8_decode [Byte.xed; Byte.xa0; Byte.x80] = None
  ∧ utf8_decode [Byte.xf4; Byte.x90; Byte.x80; Byte.x80] = None
  ∧ utf8_decode [Byte.x61; Byte.xc3] = None.
Proof. repeat split. Qed.

(** a CR CR LF b LF CR c CR reads as a LF LF b LF LF c LF. *)
Example translate_newlines_mixed :
  translate_newlines [97; 13; 13; 10; 98; 10; 13; 99; 13]%N
  = [97; 10; 10; 98; 10; 10; 99; 10]%N.
Proof. reflexivity. Qed.

(** A name read before it is assigned raises. *)
Example load_unbound :
  load "latest_tag" no_output initial
  = Raise (NameError "latest_tag") initial.
Proof. reflexivity. Qed.

(** [popen] is looked up on the module [os] only. *)
Example popen_on_str :
  popen (VStr (str "os")) (VStr git_describe) no_output initial
  = Raise (AttributeError "popen") initial.
Proof. reflexivity. Qed.

(** A pipe is at end of file after one [read]. *)
Example read_twice :
  (f ← popen (VModule "os") (VStr git_describe); _ ← read f; read f)
    tagged initial
  = Ok (VStr [], State ∅ (VModule "builtins") [[]] [Spawn git_describe]).
Proof. reflexivity. Qed.

(** ** Running the configuration *)

(** The statements are followed from an arbitrary state: the builder does
    not start the module in an empty namespace (it binds [__file__] and
    [tags] first), and a module can be executed again. *)

Section Steps.

Context {A : Type} (sh : shell) (st : state).

Lemma bind_assign (k : string) (v : value) (f : unit → M A) :
  (assign k v ≫= f) sh st
  = f tt sh (State (<[k := v]> (globals st)) (builtins st)
               (pipes st) (trace st)).
Proof. reflexivity. Qed.

Lemma bind_import_os (f : unit → M A) :
  builtins st = VModule "builtins" →
  (import_os ≫= f) sh st
  = f tt sh (State (<["os" := VModule "os"]> (globals st)) (builtins st)
               (pipes st) (trace st)).
Proof.
  destruct st as [g b p t]. cbn [builtins]. intros ->. reflexivity.
Qed.

Lemma bind_load (k : string) (v : value) (f : value → M A) :
  globals st !! k = Some v → (load k ≫= f) sh st = f v sh st.
Proof. intros Hk. unfold mbind, M_bind, load. rewrite Hk. reflexivity. Qed.

Lemma bind_popen (c : pystr) (f : value → M A) :
  (popen (VModule "os") (VStr c) ≫= f) sh st
  = f (VFile (length (pipes st))) sh
      (State (globals st) (builtins st)
         (pipes st ++ [sh c]) (trace st ++ [Spawn c])).
Proof. reflexivity. Qed.

Lemma bind_read (fd : nat) (out : bytes) (s : pystr) (f : value → M A) :
  pipes st !! fd = Some out → utf8_decode out = Some s →
  (read (VFile fd) ≫= f) sh st
  = f (VStr (translate_newlines s)) sh
      (State (globals st) (builtins st) (<[fd := []]> (pipes st)) (trace st)).
Proof.
  intros Hfd Hdec. unfold mbind, M_bind, read. rewrite Hfd. cbv zeta.
  rewrite Hdec. reflexivity.
Qed.

Lemma bind_read_undecodable (fd : nat) (out : bytes) (f : value → M A) :
  pipes st !! fd = Some out → utf8_decode out = None →
  (read (VFile fd) ≫= f) sh st
  = Raise UnicodeDecodeError
      (State (globals st) (builtins st) (<[fd := []]> (pipes st)) (trace st)).
Proof.
  intros Hfd Hdec. unfold mbind, M_bind, read. rewrite Hfd. cbv zeta.
  rewrite Hdec. reflexivity.
Qed.

Lemma bind_strip (s : pystr) (f : value → M A) :
  (strip_method (VStr s) ≫= f) sh st = f (VStr (strip s)) sh st.
Proof. reflexivity. Qed.

End Steps.

(** The pipe opened last is the one read, and reading empties it. *)
Lemma pipes_read_last (p : list bytes) (out : bytes) :
  (p ++ [out]) !! length p = Some out
  ∧ <[length p := []]> (p ++ [out]) = p ++ [[]].
Proof.
  split.
  - apply list_lookup_middle. reflexivity.
  - rewrite insert_app_r_alt by reflexivity.
    rewrite Nat.sub_diag. reflexivity.
Qed.

(** Looks up a name assigned by one of the statements already executed. *)
Ltac lookup_assigned :=
  cbn [globals];
  repeat (rewrite lookup_insert_ne by discriminate);
  apply lookup_insert_eq.

(** One statement that does not raise. *)
Ltac step_assign :=
  rewrite bind_assign; cbv beta; cbn [globals builtins pipes trace].

(** Lines 1 to 13, up to the call of [popen]. *)
Ltac run_to_popen p sh :=
  unfold conf;
  rewrite bind_import_os by reflexivity;
  cbv beta; cbn [globals builtins pipes trace];
  do 4 step_assign;
  rewrite (bind_load _ _ "os" (VModule "os")) by lookup_assigned;
  cbv beta; rewrite bind_popen; cbv beta;
  cbn [globals builtins pipes trace];
  destruct (pipes_read_last p (sh git_describe)) as [Hget Hput].

(** With the builtins in place and output that decodes, the module runs to
    its end from any state: it adds its bindings to the namespace it is
    given, opens and empties one pipe, and spawns one process. *)
Lemma conf_run (sh : shell) (st0 : state) (s : pystr) :
  builtins st0 = VModule "builtins" →
  utf8_decode (sh git_describe) = Some s →
  conf sh st0 =
  Ok (tt, State
        (<["mermaid_params" :=
             VList [VStr (str "--theme"); VStr (str "default");
                    VStr (str "--width"); VStr (str "800");
                    VStr (str "--backgroundColor"); VStr (str "transparent")]]>
        (<["mermaid_output_format" := VStr (str "png")]>
        (<["mermaid_cmd" := VStr (str "./node_modules/.bin/mmdc")]>
        (<["latex_show_urls" := VStr (str "footnote")]>
        (<["html_theme" := VStr (str "sphinx_rtd_theme")]>
        (<["templates_path" := VList [VStr (str "_templates")]]>
        (<["myst_heading_anchors" := VInt 3]>
        (<["myst_enable_extensions" :=
             VList [VStr (str "colon_fence"); VStr (str "substitution")]]>
        (<["source_suffix" := VList [VStr (str ".rst"); VStr (str ".md")]]>
        (<["extensions" :=
             VList [VStr (str "myst_parser");
                    VStr (str "sphinxcontrib.mermaid");
                    VStr (str "sphinx.ext.duration");
                    VStr (str "sphinx.ext.doctest");
                    VStr (str "sphinx.ext.autodoc");
                    VStr (str "sphinx.ext.autosummary")]]>
        (<["myst_substitutions" :=
             VDict [(VStr (str "repo_host"), VStr (str "codeberg.org"))]]>
        (<["version" := VStr (strip (translate_newlines s))]>
        (<["release" := VStr (strip (translate_newlines s))]>
        (<["latest_tag" := VStr (strip (translate_newlines s))]>
        (<["master_doc" := VStr (str "index")]>
        (<["author" := VStr (str "Paul Schaub")]>
        (<["copyright" := VStr (str "2022, Paul Schaub")]>
        (<["project" := VStr (str "PGPainless")]>
        (<["os" := VModule "os"]> (globals st0))))))))))))))))))))
        (VModule "builtins")
        (pipes st0 ++ [[]])
        (trace st0 ++ [Spawn git_describe])).
Proof.
  destruct st0 as [g b p t]. cbn [builtins globals pipes trace].
  intros -> Hdec. run_to_popen p sh.
  rewrite (bind_read _ _ _ (sh git_describe) s) by assumption.
  cbv beta. cbn [globals builtins pipes trace]. rewrite Hput.
  rewrite bind_strip. cbv beta. step_assign.
  rewrite (bind_load _ _ "latest_tag" (VStr (strip (translate_newlines s))))
    by lookup_assigned.
  cbv beta. step_assign.
  rewrite (bind_load _ _ "release" (VStr (strip (translate_newlines s))))
    by lookup_assigned.
  cbv beta. repeat step_assign. reflexivity.
Qed.

(** With output that does not decode, the module stops in line 13: the
    process has run, the names of lines 1 to 10 are bound. *)
Lemma conf_stops (sh : shell) (st0 : state) :
  builtins st0 = VModule "builtins" →
  utf8_decode (sh git_describe) = None →
  conf sh st0 =
  Raise UnicodeDecodeError
    (State
       (<["master_doc" := VStr (str "index")]>
       (<["author" := VStr (str "Paul Schaub")]>
       (<["copyright" := VStr (str "2022, Paul Schaub")]>
       (<["project" := VStr (str "PGPainless")]>
       (<["os" := VModule "os"]> (globals st0))))))
       (VModule "builtins")
       (pipes st0 ++ [[]])
       (trace st0 ++ [Spawn git_describe])).
Proof.
  destruct st0 as [g b p t]. cbn [builtins globals pipes trace].
  intros -> Hdec. run_to_popen p sh.
  rewrite (bind_read_undecodable _ _ _ (sh git_describe)) by assumption.
  cbn [globals builtins pipes trace]. rewrite Hput. reflexivity.
Qed.

(** Opens a goal [∃ st, evaluate sh = Ok st ∧ _] with the final state,
    given that the output decodes. *)
Ltac run_conf Hdec :=
  unfold evaluate;
  rewrite (conf_run _ initial _ eq_refl Hdec);
  eexists; split; [reflexivity|];
  cbn [globals builtins pipes trace initial app].

(** Looks a literal name up in the final namespace. *)
Ltac lookup_conf :=
  repeat match goal with
         | |- context [strip ?s] => generalize (strip s); intro
         end;
  vm_compute; reflexivity.

Example evaluate_tagged :
  ∃ st, evaluate tagged = Ok st ∧
    globals st !! "version" = Some (VStr (str "1.7.6")) ∧
    globals st !! "myst_heading_anchors" = Some (VInt 3).
Proof.
  unfold evaluate. rewrite (conf_run tagged initial _ eq_refl eq_refl).
  eexists. split; [reflexivity|]. split; vm_compute; reflexivity.
Qed.

(** The carriage return inside the output is read as a line feed. *)
Example evaluate_cr_tagged :
  ∃ st, evaluate cr_tagged = Ok st ∧
    globals st !! "version" = Some (VStr (str "v1" ++ [10%N] ++ str "rc")).
Proof.
  unfold evaluate. rewrite (conf_run cr_tagged initial _ eq_refl eq_refl).
  eexists. split; [reflexivity|]. vm_compute; reflexivity.
Qed.

(** Output that is not UTF-8 stops the module in line 13. *)
Example evaluate_latin1_tagged :
  ∃ st, evaluate latin1_tagged = Raise UnicodeDecodeError st ∧
    globals st !! "master_doc" = Some (VStr (str "index")) ∧
    globals st !! "version" = None.
Proof.
  unfold evaluate. rewrite (conf_stops latin1_tagged initial eq_refl eq_refl).
  eexists. split; [reflexivity|]. split; vm_compute; reflexivity.
Qed.

(** The value a name is bound to after a run that has returned. *)
Ltac bound_after Hst k :=
  apply (f_equal (λ r : result state,
                    match r with
                    | Ok st => globals st !! k
                    | Raise _ _ => None
                    end)) in Hst;
  cbv beta iota in Hst.

(** ** The version strings *)

(** C1 fails as stated: [release] is not the output with the whitespace at
    its ends removed when the output holds a carriage return, which the
    pipe hands out as a line feed. *)
Lemma release_not_stripped_output :
  ¬ (∀ (sh : shell) (s : pystr),
       utf8_decode (sh git_describe) = Some s →
       ∃ st, evaluate sh = Ok st ∧
         globals st !! "release" = Some (VStr (strip s)) ∧
         globals st !! "version" = Some (VStr (strip s))).
Proof.
  intros Hall.
  destruct (Hall cr_tagged _ eq_refl) as (st & Hst & Hrel & _).
  bound_after Hst "release". rewrite Hrel in Hst.
  vm_compute in Hst. discriminate Hst.
Qed.

(** C1, as the code has it: for every output of [git describe --abbrev=0]
    that decodes to a text [s], evaluation binds [release] to what [read()]
    returns for it, that is [s] with CR LF and CR turned into LF, with the
    whitespace at both ends removed, and [version] to the same value: both
    depend on the world only through that output. *)
Theorem version_from_describe (sh : shell) (s : pystr) :
  utf8_decode (sh git_describe) = Some s →
  ∃ st, evaluate sh = Ok st ∧
    globals st !! "release" = Some (VStr (strip (translate_newlines s))) ∧
    globals st !! "version" = Some (VStr (strip (translate_newlines s))).
Proof.
  intros Hdec. run_conf Hdec. split; lookup_conf.
Qed.

Lemma version_from_describe_witness :
  ∃ st, evaluate tagged = Ok st ∧
    globals st !! "release" = Some (VStr (strip (translate_newlines (str "1.7.6" ++ [10%N])))) ∧
    globals st !! "version" = Some (VStr (strip (translate_newlines (str "1.7.6" ++ [10%N])))).
Proof.
  apply (version_from_describe tagged (str "1.7.6" ++ [10%N])).
  reflexivity.
Defined.

(** C2: when the command prints nothing, evaluation still completes, the
    command is not run again, and [latest_tag], [release] and [version] are
    the empty string. *)
Theorem empty_describe_output (sh : shell) :
  sh git_describe = [] →
  ∃ st, evaluate sh = Ok st ∧
    globals st !! "latest_tag" = Some (VStr []) ∧
    globals st !! "release" = Some (VStr []) ∧
    globals st !! "version" = Some (VStr []) ∧
    trace st = [Spawn git_describe].
Proof.
  intros Hout.
  assert (Hdec : utf8_decode (sh git_describe) = Some []) by by rewrite Hout.
  run_conf Hdec.
  split; [vm_compute; reflexivity|]. split; [vm_compute; reflexivity|].
  split; [vm_compute; reflexivity|]. reflexivity.
Qed.

Lemma empty_describe_output_witness :
  ∃ st, evaluate no_output = Ok st ∧
    globals st !! "latest_tag" = Some (VStr []) ∧
    globals st !! "release" = Some (VStr []) ∧
    globals st !! "version" = Some (VStr []) ∧
    trace st = [Spawn git_describe].
Proof. apply (empty_describe_output no_output). reflexivity. Defined.

(** C3: evaluation spawns exactly one process, [git describe --abbrev=0];
    its one pipe is read to the end and that output is what [latest_tag]
    is made of.  Nothing else is done to the world. *)
Theorem one_external_command (sh : shell) (s : pystr) :
  utf8_decode (sh git_describe) = Some s →
  ∃ st, evaluate sh = Ok st ∧
    trace st = [Spawn (str "git describe --abbrev=0")] ∧
    pipes st = [[]] ∧
    globals st !! "latest_tag" = Some (VStr (strip (translate_newlines s))).
Proof.
  intros Hdec. run_conf Hdec.
  split; [reflexivity|]. split; [reflexivity|]. lookup_conf.
Qed.

Lemma one_external_command_witness :
  ∃ st, evaluate tagged = Ok st ∧
    trace st = [Spawn (str "git describe --abbrev=0")] ∧
    pipes st = [[]] ∧
    globals st !! "latest_tag" = Some (VStr (strip (translate_newlines (str "1.7.6" ++ [10%N])))).
Proof.
  apply (one_external_command tagged (str "1.7.6" ++ [10%N])).
  reflexivity.
Defined.

(** C8: [version], [release] and [latest_tag] hold one and the same value,
    whatever the command printed. *)
Theorem version_release_latest_tag_equal (sh : shell) (s : pystr) :
  utf8_decode (sh git_describe) = Some s →
  ∃ st v, evaluate sh = Ok st ∧
    globals st !! "latest_tag" = Some v ∧
    globals st !! "release" = Some v ∧
    globals st !! "version" = Some v.
Proof.
  intros Hdec. unfold evaluate.
  rewrite (conf_run sh initial s eq_refl Hdec).
  eexists. exists (VStr (strip (translate_newlines s))).
  split; [reflexivity|]. cbn [globals initial].
  split; [lookup_conf|]. split; lookup_conf.
Qed.

Lemma version_release_latest_tag_equal_witness :
  ∃ st v, evaluate tagged = Ok st ∧
    globals st !! "latest_tag" = Some v ∧
    globals st !! "release" = Some v ∧
    globals st !! "version" = Some v.
Proof.
  apply (version_release_latest_tag_equal tagged (str "1.7.6" ++ [10%N])).
  reflexivity.
Defined.

(** C9: [release] and [version] neither start nor end with whitespace, in
    particular they do not end with a newline, and stripping them once more
    changes nothing. *)
Theorem version_is_stripped (sh : shell) (s : pystr) :
  utf8_decode (sh git_describe) = Some s →
  ∃ st r, evaluate sh = Ok st ∧
    globals st !! "release" = Some (VStr r) ∧
    globals st !! "version" = Some (VStr r) ∧
    starts_with_space r = false ∧
    ends_with_space r = false ∧
    last r ≠ Some 10%N ∧
    strip r = r.
Proof.
  intros Hdec. unfold evaluate.
  rewrite (conf_run sh initial s eq_refl Hdec).
  eexists. exists (strip (translate_newlines s)).
  split; [reflexivity|]. cbn [globals initial].
  split; [lookup_conf|]. split; [lookup_conf|].
  split; [apply strip_starts|]. split; [apply strip_ends|].
  split; [|apply strip_idemp].
  intros Hlast. pose proof (strip_ends (translate_newlines s)) as Hends.
  unfold ends_with_space in Hends. rewrite Hlast in Hends. discriminate.
Qed.

Lemma version_is_stripped_witness :
  ∃ st r, evaluate tagged = Ok st ∧
    globals st !! "release" = Some (VStr r) ∧
    globals st !! "version" = Some (VStr r) ∧
    starts_with_space r = false ∧
    ends_with_space r = false ∧
    last r ≠ Some 10%N ∧
    strip r = r.
Proof.
  apply (version_is_stripped tagged (str "1.7.6" ++ [10%N])).
  reflexivity.
Defined.
(** ** The static part of the namespace *)

(** C4: for any two outputs of the command, every name other than
    [latest_tag], [release] and [version] is bound to the same value in both
    namespaces; apart from the imported module [os] that value is a string,
    list, dict or integer literal. *)
Theorem static_values (sh1 sh2 : shell) (s1 s2 : pystr) (k : string) :
  utf8_decode (sh1 git_describe) = Some s1 →
  utf8_decode (sh2 git_describe) = Some s2 →
  k ≠ "latest_tag" → k ≠ "release" → k ≠ "version" →
  ∃ st1 st2, evaluate sh1 = Ok st1 ∧ evaluate sh2 = Ok st2 ∧
    globals st1 !! k = globals st2 !! k ∧
    (k = "os" ∨ default true (is_literal <$> globals st1 !! k) = true).
Proof.
  intros Hdec1 Hdec2 Htag Hrel Hver. unfold evaluate.
  rewrite (conf_run sh1 initial s1 eq_refl Hdec1).
  rewrite (conf_run sh2 initial s2 eq_refl Hdec2).
  do 2 eexists. split; [reflexivity|]. split; [reflexivity|].
  cbn [globals initial]. split.
  - lookup_cases.
  - destruct (decide (k = "os")) as [|Hos]; [by left|right].
    lookup_cases.
Qed.

Lemma static_values_witness :
  ∃ st1 st2,
    evaluate tagged = Ok st1 ∧ evaluate no_output = Ok st2 ∧
    globals st1 !! "project" = globals st2 !! "project" ∧
    ("project" = "os" ∨ default true (is_literal <$> globals st1 !! "project") = true).
Proof.
  apply (static_values tagged no_output (str "1.7.6" ++ [10%N]) [] "project");
    (reflexivity || discriminate).
Defined.

(** C5: the namespace binds every name the documentation builder reads:
    project name, author, copyright, version and release, the extension
    list, the theme, the source suffixes, the path and output settings, and
    the command, format and parameters of the diagram renderer. *)
Theorem contract_keys_bound (sh : shell) (s : pystr) :
  utf8_decode (sh git_describe) = Some s →
  ∃ st, evaluate sh = Ok st ∧
    Forall (λ k, is_Some (globals st !! k))
      ["project"; "author"; "copyright"; "version"; "release";
       "extensions"; "html_theme"; "source_suffix";
       "master_doc"; "templates_path"; "latex_show_urls";
       "mermaid_cmd"; "mermaid_output_format"; "mermaid_params"].
Proof.
  intros Hdec. run_conf Hdec.
  repeat (apply Forall_cons_2; [eexists; vm_compute; reflexivity|]).
  apply Forall_nil_2.
Qed.

Lemma contract_keys_bound_witness :
  ∃ st, evaluate tagged = Ok st ∧
    Forall (λ k, is_Some (globals st !! k))
      ["project"; "author"; "copyright"; "version"; "release";
       "extensions"; "html_theme"; "source_suffix";
       "master_doc"; "templates_path"; "latex_show_urls";
       "mermaid_cmd"; "mermaid_output_format"; "mermaid_params"].
Proof.
  apply (contract_keys_bound tagged (str "1.7.6" ++ [10%N])).
  reflexivity.
Defined.

(** C6: the literal values of the file, in every world. *)
Theorem literal_values (sh : shell) (s : pystr) :
  utf8_decode (sh git_describe) = Some s →
  ∃ st, evaluate sh = Ok st ∧
    globals st !! "project" = Some (VStr (str "PGPainless")) ∧
    globals st !! "author" = Some (VStr (str "Paul Schaub")) ∧
    globals st !! "copyright" = Some (VStr (str "2022, Paul Schaub")) ∧
    globals st !! "html_theme" = Some (VStr (str "sphinx_rtd_theme")) ∧
    globals st !! "source_suffix" =
      Some (VList [VStr (str ".rst"); VStr (str ".md")]) ∧
    globals st !! "extensions" =
      Some (VList [VStr (str "myst_parser");
                   VStr (str "sphinxcontrib.mermaid");
                   VStr (str "sphinx.ext.duration");
                   VStr (str "sphinx.ext.doctest");
                   VStr (str "sphinx.ext.autodoc");
                   VStr (str "sphinx.ext.autosummary")]) ∧
    globals st !! "mermaid_output_format" = Some (VStr (str "png")) ∧
    globals st !! "mermaid_params" =
      Some (VList [VStr (str "--theme"); VStr (str "default");
                   VStr (str "--width"); VStr (str "800");
                   VStr (str "--backgroundColor"); VStr (str "transparent")]).
Proof.
  intros Hdec. run_conf Hdec. repeat (split; [lookup_conf|]). lookup_conf.
Qed.

Lemma literal_values_witness :
  ∃ st, evaluate tagged = Ok st ∧
    globals st !! "project" = Some (VStr (str "PGPainless")) ∧
    globals st !! "author" = Some (VStr (str "Paul Schaub")) ∧
    globals st !! "copyright" = Some (VStr (str "2022, Paul Schaub")) ∧
    globals st !! "html_theme" = Some (VStr (str "sphinx_rtd_theme")) ∧
    globals st !! "source_suffix" =
      Some (VList [VStr (str ".rst"); VStr (str ".md")]) ∧
    globals st !! "extensions" =
      Some (VList [VStr (str "myst_parser");
                   VStr (str "sphinxcontrib.mermaid");
                   VStr (str "sphinx.ext.duration");
                   VStr (str "sphinx.ext.doctest");
                   VStr (str "sphinx.ext.autodoc");
                   VStr (str "sphinx.ext.autosummary")]) ∧
    globals st !! "mermaid_output_format" = Some (VStr (str "png")) ∧
    globals st !! "mermaid_params" =
      Some (VList [VStr (str "--theme"); VStr (str "default");
                   VStr (str "--width"); VStr (str "800");
                   VStr (str "--backgroundColor"); VStr (str "transparent")]).
Proof.
  apply (literal_values tagged (str "1.7.6" ++ [10%N])).
  reflexivity.
Defined.

(** ** The shape of the values *)

(** C7 fails as stated: the namespace holds a value that is neither text,
    nor a list of text, nor a mapping from text to text:
    [myst_heading_anchors] is the integer 3 (and [os] is a module). *)
Lemma heading_anchors_not_textual :
  ¬ (∀ (sh : shell) (s : pystr),
       utf8_decode (sh git_describe) = Some s →
       ∃ st, evaluate sh = Ok st ∧
         map_Forall (λ _ v, is_textual v = true) (globals st)).
Proof.
  intros Hall. destruct (Hall no_output [] eq_refl) as (st & Hst & Hshape).
  specialize (Hshape "myst_heading_anchors" (VInt 3)).
  discriminate Hshape.
  bound_after Hst "myst_heading_anchors". rewrite <- Hst.
  vm_compute. reflexivity.
Qed.

(** C7, as the code has it: every value of the namespace is a string, a
    list of strings or a mapping from strings to strings, except that
    [myst_heading_anchors] is the integer 3 and that [os] is bound to the
    imported module. *)
Theorem namespace_shapes (sh : shell) (s : pystr) :
  utf8_decode (sh git_describe) = Some s →
  ∃ st, evaluate sh = Ok st ∧
    map_Forall (λ k v,
        is_textual v = true
        ∨ (k = "myst_heading_anchors" ∧ v = VInt 3)
        ∨ (k = "os" ∧ v = VModule "os"))
      (globals st).
Proof.
  intros Hdec. run_conf Hdec.
  repeat (apply map_Forall_insert_2; [auto|]).
  apply map_Forall_empty.
Qed.

Lemma namespace_shapes_witness :
  ∃ st, evaluate tagged = Ok st ∧
    map_Forall (λ k v,
        is_textual v = true
        ∨ (k = "myst_heading_anchors" ∧ v = VInt 3)
        ∨ (k = "os" ∧ v = VModule "os"))
      (globals st).
Proof.
  apply (namespace_shapes tagged (str "1.7.6" ++ [10%N])).
  reflexivity.
Defined.

(** ** Totality *)

(** C10 fails as stated: evaluation raises when the output of the command
    is not text in the encoding of the pipe, and then binds none of the
    names after line 10. *)
Lemma evaluate_not_total :
  ¬ (∀ sh : shell, ∃ st, evaluate sh = Ok st ∧
       Forall (λ k, is_Some (globals st !! k)) conf_names).
Proof.
  intros Hall. destruct (Hall latin1_tagged) as (st & Hst & _).
  unfold evaluate in Hst.
  rewrite (conf_stops latin1_tagged initial eq_refl eq_refl) in Hst.
  discriminate Hst.
Qed.

(** C10, as the code has it: evaluation returns, raising nothing and
    binding every name of the file, in every world where the output of the
    command decodes; that includes the world where the command is missing
    or fails, so that nothing is captured, and there the namespace is the
    one of any other run with the three version strings emptied. *)
Theorem evaluate_total (sh : shell) (s : pystr) :
  utf8_decode (sh git_describe) = Some s →
  ∃ st st0, evaluate sh = Ok st ∧ evaluate no_output = Ok st0 ∧
    Forall (λ k, is_Some (globals st !! k)) conf_names ∧
    dom (globals st0) = dom (globals st) ∧
    globals st0 =
      <["version" := VStr []]>
     (<["release" := VStr []]>
     (<["latest_tag" := VStr []]> (globals st))).
Proof.
  intros Hdec. unfold evaluate.
  rewrite (conf_run sh initial s eq_refl Hdec).
  rewrite (conf_run no_output initial [] eq_refl eq_refl).
  do 2 eexists. split; [reflexivity|]. split; [reflexivity|].
  cbn [globals initial]. split; [|split].
  - unfold conf_names.
    repeat (apply Forall_cons_2; [eexists; vm_compute; reflexivity|]).
    apply Forall_nil_2.
  - rewrite !dom_insert_L. reflexivity.
  - apply map_eq. intros k. lookup_cases.
Qed.

Lemma evaluate_total_witness :
  ∃ st st0, evaluate tagged = Ok st ∧ evaluate no_output = Ok st0 ∧
    Forall (λ k, is_Some (globals st !! k)) conf_names ∧
    dom (globals st0) = dom (globals st) ∧
    globals st0 =
      <["version" := VStr []]>
     (<["release" := VStr []]>
     (<["latest_tag" := VStr []]> (globals st))).
Proof.
  apply (evaluate_total tagged (str "1.7.6" ++ [10%N])).
  reflexivity.
Defined.
(** ** More on the version strings *)

(** X1: the text read from the pipe, that is the output decoded and with
    its newlines translated, is [version] with whitespace, and nothing but
    whitespace, before and after it: stripping loses no character of what
    was read. *)
Theorem version_within_output (sh : shell) (s : pystr) :
  utf8_decode (sh git_describe) = Some s →
  ∃ st r pre post, evaluate sh = Ok st ∧
    globals st !! "version" = Some (VStr r) ∧
    translate_newlines s = pre ++ r ++ post ∧
    forallb isspace pre = true ∧ forallb isspace post = true.
Proof.
  intros Hdec.
  destruct (strip_split (translate_newlines s))
    as (pre & post & Hsplit & Hws).
  unfold evaluate. rewrite (conf_run sh initial s eq_refl Hdec).
  eexists. exists (strip (translate_newlines s)), pre, post.
  split; [reflexivity|]. cbn [globals initial].
  split; [lookup_conf|]. done.
Qed.

Lemma version_within_output_witness :
  ∃ st r pre post, evaluate tagged = Ok st ∧
    globals st !! "version" = Some (VStr r) ∧
    translate_newlines (str "1.7.6" ++ [10%N]) = pre ++ r ++ post ∧
    forallb isspace pre = true ∧ forallb isspace post = true.
Proof.
  apply (version_within_output tagged (str "1.7.6" ++ [10%N])).
  reflexivity.
Defined.

(** X2: [version] is the empty string exactly when the captured output is
    blank, that is empty or whitespace only. *)
Theorem version_empty_when_blank (sh : shell) (s : pystr) :
  utf8_decode (sh git_describe) = Some s →
  ∃ st r, evaluate sh = Ok st ∧
    globals st !! "version" = Some (VStr r) ∧
    bool_decide (r = []) = forallb isspace s.
Proof.
  intros Hdec. unfold evaluate.
  rewrite (conf_run sh initial s eq_refl Hdec).
  eexists. exists (strip (translate_newlines s)).
  split; [reflexivity|]. cbn [globals initial]. split; [lookup_conf|].
  rewrite strip_nil_blank. apply newlines_blank.
Qed.

Lemma version_empty_when_blank_witness :
  ∃ st r, evaluate tagged = Ok st ∧
    globals st !! "version" = Some (VStr r) ∧
    bool_decide (r = []) = forallb isspace (str "1.7.6" ++ [10%N]).
Proof.
  apply (version_empty_when_blank tagged (str "1.7.6" ++ [10%N])).
  reflexivity.
Defined.

(** X3: when the command prints a tag that has no whitespace at its ends
    and no carriage return inside, with whitespace around it (the newline
    [git describe] adds, be it LF or CR LF), then [latest_tag], [release]
    and [version] are that tag, whitespace inside it included. *)
Theorem clean_tag_passes (sh : shell) (pre t post : pystr) :
  utf8_decode (sh git_describe) = Some (pre ++ t ++ post) →
  forallb isspace pre = true → forallb isspace post = true →
  starts_with_space t = false → ends_with_space t = false →
  has_cr t = false →
  ∃ st, evaluate sh = Ok st ∧
    globals st !! "latest_tag" = Some (VStr t) ∧
    globals st !! "release" = Some (VStr t) ∧
    globals st !! "version" = Some (VStr t).
Proof.
  intros Hdec Hpre Hpost Hstart Hend Hcr. run_conf Hdec.
  rewrite !(strip_translate_core pre t post Hpre Hpost Hstart Hend Hcr).
  split; [vm_compute; reflexivity|]. split; vm_compute; reflexivity.
Qed.

Lemma clean_tag_passes_witness :
  ∃ st, evaluate (λ _, ascii_bytes "v1 rc" ++ [Byte.x0d; Byte.x0a]) = Ok st ∧
    globals st !! "latest_tag" = Some (VStr (str "v1 rc")) ∧
    globals st !! "release" = Some (VStr (str "v1 rc")) ∧
    globals st !! "version" = Some (VStr (str "v1 rc")).
Proof.
  apply (clean_tag_passes (λ _, ascii_bytes "v1 rc" ++ [Byte.x0d; Byte.x0a])
           [] (str "v1 rc") [13; 10]%N);
    reflexivity.
Defined.

(** X4: two worlds whose outputs decode lead to the same final state
    exactly when what is read from the pipe agrees after stripping; nothing
    else of the world is looked at. *)
Theorem evaluate_same_iff (sh1 sh2 : shell) (s1 s2 : pystr) :
  utf8_decode (sh1 git_describe) = Some s1 →
  utf8_decode (sh2 git_describe) = Some s2 →
  evaluate sh1 = evaluate sh2
  ↔ strip (translate_newlines s1) = strip (translate_newlines s2).
Proof.
  intros Hdec1 Hdec2. unfold evaluate.
  rewrite (conf_run sh1 initial s1 eq_refl Hdec1).
  rewrite (conf_run sh2 initial s2 eq_refl Hdec2).
  split.
  - intros Heq.
    apply (f_equal (λ r : result state,
                      match r with
                      | Ok st => globals st !! "version"
                      | Raise _ _ => None
                      end)) in Heq.
    cbv beta iota delta [globals] in Heq. revert Heq.
    generalize (strip (translate_newlines s1)),
               (strip (translate_newlines s2)).
    intros tag1 tag2 Heq. vm_compute in Heq. congruence.
  - intros ->. reflexivity.
Qed.

Lemma evaluate_same_iff_witness :
  evaluate tagged = evaluate (λ _, ascii_bytes "1.7.6" ++ [Byte.x0d; Byte.x0a])
  ↔ strip (translate_newlines (str "1.7.6" ++ [10%N]))
    = strip (translate_newlines (str "1.7.6" ++ [13; 10]%N)).
Proof.
  apply (evaluate_same_iff tagged
           (λ _, ascii_bytes "1.7.6" ++ [Byte.x0d; Byte.x0a])); reflexivity.
Defined.

(** X5: the literals the other statements bind, in every world. *)
Theorem other_literal_values (sh : shell) (s : pystr) :
  utf8_decode (sh git_describe) = Some s →
  ∃ st, evaluate sh = Ok st ∧
    globals st !! "master_doc" = Some (VStr (str "index")) ∧
    globals st !! "myst_substitutions" =
      Some (VDict [(VStr (str "repo_host"), VStr (str "codeberg.org"))]) ∧
    globals st !! "myst_enable_extensions" =
      Some (VList [VStr (str "colon_fence"); VStr (str "substitution")]) ∧
    globals st !! "myst_heading_anchors" = Some (VInt 3) ∧
    globals st !! "templates_path" = Some (VList [VStr (str "_templates")]) ∧
    globals st !! "latex_show_urls" = Some (VStr (str "footnote")) ∧
    globals st !! "mermaid_cmd" = Some (VStr (str "./node_modules/.bin/mmdc")).
Proof.
  intros Hdec. run_conf Hdec. repeat (split; [lookup_conf|]). lookup_conf.
Qed.

Lemma other_literal_values_witness :
  ∃ st, evaluate tagged = Ok st ∧
    globals st !! "master_doc" = Some (VStr (str "index")) ∧
    globals st !! "myst_substitutions" =
      Some (VDict [(VStr (str "repo_host"), VStr (str "codeberg.org"))]) ∧
    globals st !! "myst_enable_extensions" =
      Some (VList [VStr (str "colon_fence"); VStr (str "substitution")]) ∧
    globals st !! "myst_heading_anchors" = Some (VInt 3) ∧
    globals st !! "templates_path" = Some (VList [VStr (str "_templates")]) ∧
    globals st !! "latex_show_urls" = Some (VStr (str "footnote")) ∧
    globals st !! "mermaid_cmd" = Some (VStr (str "./node_modules/.bin/mmdc")).
Proof.
  apply (other_literal_values tagged (str "1.7.6" ++ [10%N])).
  reflexivity.
Defined.

(** ** The module in a namespace that is not empty *)

(** X6: started in any state whose builtins are the module [builtins], in a
    world where the output decodes, the module runs to its end without
    raising, and a name it does not assign keeps the binding it had (or
    stays unbound). *)
Theorem conf_preserves_other_names
    (sh : shell) (st0 : state) (s : pystr) (k : string) :
  builtins st0 = VModule "builtins" →
  utf8_decode (sh git_describe) = Some s →
  k ∉ conf_names →
  ∃ st, conf sh st0 = Ok (tt, st) ∧ globals st !! k = globals st0 !! k.
Proof.
  intros Hb Hdec Hk. rewrite (conf_run sh st0 s Hb Hdec).
  eexists. split; [reflexivity|].
  cbn [globals]. unfold conf_names in Hk.
  repeat (apply not_elem_of_cons in Hk as [? Hk]).
  by rewrite !lookup_insert_ne.
Qed.

Lemma conf_preserves_other_names_witness :
  ∃ st,
    conf tagged
      (State {["__file__" := VStr (str "conf.py")]}
         (VModule "builtins") [] []) = Ok (tt, st) ∧
    globals st !! "__file__" =
      globals (State {["__file__" := VStr (str "conf.py")]}
                 (VModule "builtins") [] []) !! "__file__".
Proof.
  apply (conf_preserves_other_names tagged
           (State {["__file__" := VStr (str "conf.py")]}
              (VModule "builtins") [] [])
           (str "1.7.6" ++ [10%N]) "__file__");
    [reflexivity|reflexivity|].
  apply (bool_decide_unpack _). vm_compute. exact I.
Defined.

(** X7: under the same two conditions, whatever the namespace held before,
    each name the module assigns ends with the value it has after a run
    from the empty namespace. *)
Theorem conf_rebinds_its_names (sh : shell) (st0 : state) (s : pystr) :
  builtins st0 = VModule "builtins" →
  utf8_decode (sh git_describe) = Some s →
  ∃ st st', conf sh st0 = Ok (tt, st) ∧ evaluate sh = Ok st' ∧
    Forall (λ k, globals st !! k = globals st' !! k) conf_names.
Proof.
  intros Hb Hdec. unfold evaluate.
  rewrite (conf_run sh st0 s Hb Hdec).
  rewrite (conf_run sh initial s eq_refl Hdec). do 2 eexists.
  split; [reflexivity|]. split; [reflexivity|]. cbn [globals].
  unfold conf_names.
  repeat (apply Forall_cons_2;
          [repeat (rewrite lookup_insert_ne by discriminate);
           rewrite !lookup_insert_eq; reflexivity|]).
  apply Forall_nil_2.
Qed.

Lemma conf_rebinds_its_names_witness :
  ∃ st st',
    conf tagged
      (State {["version" := VInt 7]} (VModule "builtins") [] [])
    = Ok (tt, st) ∧
    evaluate tagged = Ok st' ∧
    Forall (λ k, globals st !! k = globals st' !! k) conf_names.
Proof.
  apply (conf_rebinds_its_names tagged
           (State {["version" := VInt 7]} (VModule "builtins") [] [])
           (str "1.7.6" ++ [10%N])); reflexivity.
Defined.

(** X8: under the same two conditions, on top of what was done before, a
    run spawns the one process and opens one pipe, which it leaves empty;
    output waiting in pipes that were already open is not consumed. *)
Theorem conf_effects_frame (sh : shell) (st0 : state) (s : pystr) :
  builtins st0 = VModule "builtins" →
  utf8_decode (sh git_describe) = Some s →
  ∃ st, conf sh st0 = Ok (tt, st) ∧
    trace st = trace st0 ++ [Spawn git_describe] ∧
    pipes st = pipes st0 ++ [[]].
Proof.
  intros Hb Hdec. rewrite (conf_run sh st0 s Hb Hdec).
  eexists. split; [reflexivity|]. split; reflexivity.
Qed.

Lemma conf_effects_frame_witness :
  ∃ st,
    conf tagged
      (State ∅ (VModule "builtins") [ascii_bytes "unread"] [Spawn (str "ls")])
    = Ok (tt, st) ∧
    trace st =
      trace (State ∅ (VModule "builtins") [ascii_bytes "unread"]
               [Spawn (str "ls")]) ++ [Spawn git_describe] ∧
    pipes st =
      pipes (State ∅ (VModule "builtins") [ascii_bytes "unread"]
               [Spawn (str "ls")]) ++ [[]].
Proof.
  apply (conf_effects_frame tagged
           (State ∅ (VModule "builtins") [ascii_bytes "unread"]
              [Spawn (str "ls")])
           (str "1.7.6" ++ [10%N])); reflexivity.
Defined.

(** X9: executing the module again, in a world that may have changed,
    leaves the namespace of a single run in the new world; the command is
    run again, nothing is cached. *)
Theorem conf_rerun (sh1 sh2 : shell) (s1 s2 : pystr) :
  utf8_decode (sh1 git_describe) = Some s1 →
  utf8_decode (sh2 git_describe) = Some s2 →
  ∃ st1 st2 st, evaluate sh1 = Ok st1 ∧ evaluate sh2 = Ok st2 ∧
    conf sh2 st1 = Ok (tt, st) ∧
    globals st = globals st2 ∧
    trace st = [Spawn git_describe; Spawn git_describe].
Proof.
  intros Hdec1 Hdec2. unfold evaluate.
  rewrite (conf_run sh1 initial s1 eq_refl Hdec1).
  rewrite (conf_run sh2 initial s2 eq_refl Hdec2).
  do 3 eexists. split; [reflexivity|]. split; [reflexivity|].
  erewrite conf_run; [|reflexivity|exact Hdec2].
  split; [reflexivity|]. cbn [globals trace initial].
  split; [|reflexivity].
  apply map_eq. intros k. lookup_cases.
Qed.

Lemma conf_rerun_witness :
  ∃ st1 st2 st, evaluate no_output = Ok st1 ∧ evaluate tagged = Ok st2 ∧
    conf tagged st1 = Ok (tt, st) ∧
    globals st = globals st2 ∧
    trace st = [Spawn git_describe; Spawn git_describe].
Proof.
  apply (conf_rerun no_output tagged [] (str "1.7.6" ++ [10%N])); reflexivity.
Defined.

(** ** Runs that raise *)

(** X10: when the output of the command is not valid UTF-8, evaluation
    raises [UnicodeDecodeError] in line 13: the process has been spawned,
    the names of lines 1 to 10 are bound and none of the later ones is. *)
Theorem undecodable_output_raises (sh : shell) :
  utf8_decode (sh git_describe) = None →
  ∃ st, evaluate sh = Raise UnicodeDecodeError st ∧
    trace st = [Spawn git_describe] ∧
    Forall (λ k, is_Some (globals st !! k))
      ["os"; "project"; "copyright"; "author"; "master_doc"] ∧
    Forall (λ k, globals st !! k = None)
      ["latest_tag"; "release"; "version"; "myst_substitutions";
       "extensions"; "source_suffix"; "myst_enable_extensions";
       "myst_heading_anchors"; "templates_path"; "html_theme";
       "latex_show_urls"; "mermaid_cmd"; "mermaid_output_format";
       "mermaid_params"].
Proof.
  intros Hdec. unfold evaluate.
  rewrite (conf_stops sh initial eq_refl Hdec).
  eexists. split; [reflexivity|]. split; [reflexivity|].
  cbn [globals initial]. split.
  - repeat (apply Forall_cons_2; [eexists; vm_compute; reflexivity|]).
    apply Forall_nil_2.
  - repeat (apply Forall_cons_2; [vm_compute; reflexivity|]).
    apply Forall_nil_2.
Qed.

Lemma undecodable_output_raises_witness :
  ∃ st, evaluate latin1_tagged = Raise UnicodeDecodeError st ∧
    trace st = [Spawn git_describe] ∧
    Forall (λ k, is_Some (globals st !! k))
      ["os"; "project"; "copyright"; "author"; "master_doc"] ∧
    Forall (λ k, globals st !! k = None)
      ["latest_tag"; "release"; "version"; "myst_substitutions";
       "extensions"; "source_suffix"; "myst_enable_extensions";
       "myst_heading_anchors"; "templates_path"; "html_theme";
       "latex_show_urls"; "mermaid_cmd"; "mermaid_output_format";
       "mermaid_params"].
Proof. apply (undecodable_output_raises latin1_tagged). reflexivity. Defined.

(** X11: in a namespace whose [__builtins__] is a dict without
    [__import__], the module raises [ImportError] in line 1: it binds
    nothing and spawns nothing. *)
Theorem import_needs_builtins
    (sh : shell) (st0 : state) (entries : list (value * value)) :
  builtins st0 = VDict entries →
  dict_has (str "__import__") entries = false →
  conf sh st0 = Raise ImportError st0.
Proof.
  intros Hb Hkey. unfold conf, mbind, M_bind, import_os.
  rewrite Hb, Hkey. reflexivity.
Qed.

Lemma import_needs_builtins_witness :
  conf tagged (State ∅ (VDict []) [] [])
  = Raise ImportError (State ∅ (VDict []) [] []).
Proof.
  apply (import_needs_builtins tagged (State ∅ (VDict []) [] []) []);
    reflexivity.
Defined.
